(** * metaverse_client: packet codec, control-channel bridge and session bootstrap

    A shallow embedding of
    - [crates/messages/src/circuit_code.rs]      (CircuitCodeData and its codec),
    - [crates/messages/src/models/packet.rs]     (Packet::from_bytes / to_bytes),
    - [crates/session/src/server_subscriber.rs]  (listen_for_ui_messages, handle_login).

    Bytes are [Z] values; a [u32] is a [Z] in [0, 2^32).  Rust panics
    ([unwrap] on [None]/[Err], out-of-range slicing) are the [Panic] outcome of
    the [Exec] type. *)

From Stdlib Require Import String ZArith Lia Bool List.
Import ListNotations.
Open Scope Z_scope.

(** ** Rust runtime: results, panics, slices *)

Inductive result (A E : Type) : Type :=
| Ok (a : A)
| Err (e : E).
Arguments Ok {A E} a.
Arguments Err {A E} e.

(** A computation that either finishes with a value or panics. *)
Inductive Exec (A : Type) : Type :=
| Done (a : A)
| Panic.
Arguments Done {A} a.
Arguments Panic {A}.

Definition exec_bind {A B} (e : Exec A) (k : A -> Exec B) : Exec B :=
  match e with
  | Done a => k a
  | Panic => Panic
  end.

Notation "'let!' x := e 'in' k" := (exec_bind e (fun x => k))
  (at level 200, x name, e at level 100, k at level 200).

(** [Option::unwrap] *)
Definition unwrap {A} (o : option A) : Exec A :=
  match o with
  | Some a => Done a
  | None => Panic
  end.

(** [Result::unwrap] *)
Definition unwrap_res {A E} (r : result A E) : Exec A :=
  match r with
  | Ok a => Done a
  | Err _ => Panic
  end.

(** [Option::is_some] *)
Definition is_some {A} (o : option A) : bool :=
  match o with
  | Some _ => true
  | None => false
  end.

(** [&bytes[a..b]]: panics unless [a <= b <= bytes.len()]. *)
Definition slice (a b : nat) (bytes : list Z) : option (list Z) :=
  if (a <=? b)%nat && (b <=? length bytes)%nat
  then Some (firstn (b - a) (skipn a bytes))
  else None.

(** [&bytes[a..]]: panics unless [a <= bytes.len()]. *)
Definition slice_from (a : nat) (bytes : list Z) : option (list Z) :=
  if (a <=? length bytes)%nat then Some (skipn a bytes) else None.

(** [io::Error] kinds that the modelled code can produce. *)
Inductive io_error : Type :=
| MalformedHeader
| UnknownMessageType
| InvalidData.

Definition io_result (A : Type) := result A io_error.

(** [<[u8; 4]>::try_from(slice)] *)
Definition try_into_array4 (s : list Z) : option (list Z) :=
  if (length s =? 4)%nat then Some s else None.

(** [u32::from_le_bytes] *)
Definition u32_from_le_bytes (b : list Z) : Z :=
  match b with
  | [b0; b1; b2; b3] => b0 + b1 * 2^8 + b2 * 2^16 + b3 * 2^24
  | _ => 0
  end.

(** [u32::to_le_bytes] *)
Definition u32_to_le_bytes (c : Z) : list Z :=
  [Z.land c 255; Z.land (Z.shiftr c 8) 255;
   Z.land (Z.shiftr c 16) 255; Z.land (Z.shiftr c 24) 255].

Definition is_u32 (c : Z) : bool := (0 <=? c) && (c <? 2^32).

(** ** [uuid::Uuid]: sixteen raw bytes *)

Record Uuid : Type := mk_uuid { uuid_bytes : list Z }.

(** [Uuid::as_bytes] *)
Definition as_bytes (u : Uuid) : list Z := uuid_bytes u.

(** [Uuid::from_slice]: errors unless the slice has exactly 16 bytes. *)
Definition uuid_from_slice (s : list Z) : result Uuid io_error :=
  if (length s =? 16)%nat then Ok (mk_uuid s) else Err InvalidData.

(** A [Uuid] value of the Rust type always holds 16 bytes. *)
Definition uuid_wf (u : Uuid) : bool := (length (uuid_bytes u) =? 16)%nat.

(** ** [circuit_code.rs]: CircuitCodeData.t *)

Module CircuitCodeData.
Record t : Type := mk {
  code : Z;
  session_id : Uuid;
  id : Uuid
}.
End CircuitCodeData.

Definition circuit_code_wf (v : CircuitCodeData.t) : bool :=
  is_u32 (CircuitCodeData.code v) && uuid_wf (CircuitCodeData.session_id v)
  && uuid_wf (CircuitCodeData.id v).

(** [<CircuitCodeData as PacketData>::from_bytes] *)
Definition circuit_code_from_bytes (bytes : list Z)
  : Exec (io_result CircuitCodeData.t) :=
  let! s0 := unwrap (slice 0 4 bytes) in
  let! a := unwrap (try_into_array4 s0) in
  let code := u32_from_le_bytes a in
  let! s1 := unwrap (slice 4 20 bytes) in
  let! session_id := unwrap_res (uuid_from_slice s1) in
  let! s2 := unwrap (slice 20 36 bytes) in
  let! id := unwrap_res (uuid_from_slice s2) in
  Done (Ok (CircuitCodeData.mk code session_id id)).

(** [<CircuitCodeData as PacketData>::to_bytes] *)
Definition circuit_code_to_bytes (v : CircuitCodeData.t) : list Z :=
  u32_to_le_bytes (CircuitCodeData.code v) ++ as_bytes (CircuitCodeData.session_id v)
  ++ as_bytes (CircuitCodeData.id v).

(** ** [header.rs]: the packet header *)

Inductive PacketFrequency : Type :=
| Low
| Medium
| High.

Definition frequency_eqb (a b : PacketFrequency) : bool :=
  match a, b with
  | Low, Low | Medium, Medium | High, High => true
  | _, _ => false
  end.

Module Header.
Record t : Type := mk {
  id : Z;
  frequency : PacketFrequency;
  reliable : bool;
  sequence_number : Z;
  appended_acks : bool;
  zerocoded : bool;
  resent : bool;
  ack_list : option (list Z);
  size : option nat
}.
End Header.

(** Big-endian [u32] at the front of a byte list. *)
Definition be_u32 (b0 b1 b2 b3 : Z) : Z := b0 * 2^24 + b1 * 2^16 + b2 * 2^8 + b3.

(** [n] consecutive big-endian [u32] values, if that many bytes are there. *)
Fixpoint read_be_u32s (n : nat) (bytes : list Z) : option (list Z) :=
  match n with
  | O => Some []
  | S n' =>
      match bytes with
      | b0 :: b1 :: b2 :: b3 :: rest =>
          match read_be_u32s n' rest with
          | Some l => Some (be_u32 b0 b1 b2 b3 :: l)
          | None => None
          end
      | _ => None
      end
  end.

(** The frequency-tiered message identifier that starts at offset 6:
    [FF FF hi lo] is Low, [FF x] is Medium, any other [x] is High.  Returns
    the id, its tier and the offset just after the identifier bytes. *)
Definition read_message_id (rest : list Z) : option (Z * PacketFrequency * nat) :=
  match rest with
  | [] => None
  | b0 :: r0 =>
      if b0 =? 255 then
        match r0 with
        | [] => None
        | b1 :: r1 =>
            if b1 =? 255 then
              match r1 with
              | i0 :: i1 :: _ => Some (i0 * 256 + i1, Low, 10%nat)
              | _ => None
              end
            else Some (b1, Medium, 8%nat)
        end
      else Some (b0, High, 7%nat)
  end.

(** Modelled from the spec: [Header::try_from_bytes]
    (crates/messages/src/models/header.rs is not among the sources), after
    §4.1 of the spec.  A flag byte, a 4-byte big-endian sequence number, one
    extra-header byte, then the tiered identifier; [size] is the offset just
    after the identifier.  With [appended_acks] set, the last byte counts the
    trailing 4-byte acknowledgments, which sit at the end of the buffer.
    Too few bytes for any of this is [MalformedHeader].  The spec reserves
    bits of the flag byte without fixing them; the family's wire convention is
    used: 0x80 zerocoded, 0x40 reliable, 0x20 resent, 0x10 appended acks. *)
Definition header_try_from_bytes (bytes : list Z) : io_result Header.t :=
  match bytes with
  | flags :: s0 :: s1 :: s2 :: s3 :: _extra :: rest =>
      match read_message_id rest with
      | None => Err MalformedHeader
      | Some (id, frequency, size) =>
          let appended_acks := Z.testbit flags 4 in
          let acks :=
            if appended_acks then
              match rev bytes with
              | [] => None
              | count :: _ =>
                  let n := Z.to_nat count in
                  if (size + 4 * n + 1 <=? length bytes)%nat
                  then option_map Some
                         (read_be_u32s n (skipn (length bytes - 1 - 4 * n) bytes))
                  else None
              end
            else Some None in
          match acks with
          | None => Err MalformedHeader
          | Some ack_list =>
              Ok {| Header.id := id;
                    Header.frequency := frequency;
                    Header.reliable := Z.testbit flags 6;
                    Header.sequence_number := be_u32 s0 s1 s2 s3;
                    Header.appended_acks := appended_acks;
                    Header.zerocoded := Z.testbit flags 7;
                    Header.resent := Z.testbit flags 5;
                    Header.ack_list := ack_list;
                    Header.size := Some size |}
          end
      end
  | _ => Err MalformedHeader
  end.

(** ** Message bodies and [PacketType] *)

Module Login.
Record t : Type := mk {
  first : string;
  last : string;
  passwd : string;
  start : string;
  channel : string;
  agree_to_tos : bool;
  read_critical : bool;
  url : string
}.
End Login.

Module CompleteAgentMovementData.
Record t : Type := mk {
  circuit_code : Z;
  session_id : Uuid;
  agent_id : Uuid
}.
End CompleteAgentMovementData.

(** The registered message kinds.  Kinds whose codecs are not among the
    sources (AgentUpdate, ChatFromSimulator, CoarseLocationUpdate,
    DisableSimulator, PacketAck, ...) are [Other name body]. *)
Module PacketType.
Inductive t : Type :=
| Login (l : Login.t)
| CircuitCode (c : CircuitCodeData.t)
| CompleteAgentMovement (c : CompleteAgentMovementData.t)
| Other (name : string) (body : list Z).
End PacketType.

Module Packet.
Record t : Type := mk {
  header : Header.t;
  body : PacketType.t
}.
End Packet.

(** [Packet::new_circuit_code] *)
Definition new_circuit_code (circuit_code_block : CircuitCodeData.t) : Packet.t :=
  {| Packet.header :=
       {| Header.id := 3;
          Header.frequency := Low;
          Header.reliable := true;
          Header.sequence_number := 0;
          Header.appended_acks := false;
          Header.zerocoded := false;
          Header.resent := false;
          Header.ack_list := None;
          Header.size := None |};
     Packet.body := PacketType.CircuitCode circuit_code_block |}.

(** The body slice of [Packet::from_bytes] (lines 26-30 of packet.rs). *)
Definition body_slice (header : Header.t) (bytes : list Z) : list Z :=
  let s := match Header.size header with Some s => s | None => 0%nat end in
  if (s <? length bytes)%nat then skipn s bytes else [].

Section PacketCodec.
(** [PacketType::from_id], the registry (packet_types.rs, not among the
    sources); it may itself panic inside a body decoder. *)
Variable from_id : Z -> PacketFrequency -> list Z -> Exec (io_result PacketType.t).
(** Encoders outside the sources: [Header::to_bytes] and the bodies other
    than CircuitCode. *)
Variable header_to_bytes : Header.t -> list Z.
Variable login_to_bytes : Login.t -> list Z.
Variable cam_to_bytes : CompleteAgentMovementData.t -> list Z.
Variable other_to_bytes : string -> list Z -> list Z.

Definition packet_type_to_bytes (b : PacketType.t) : list Z :=
  match b with
  | PacketType.Login l => login_to_bytes l
  | PacketType.CircuitCode c => circuit_code_to_bytes c
  | PacketType.CompleteAgentMovement c => cam_to_bytes c
  | PacketType.Other n raw => other_to_bytes n raw
  end.

(** [Packet::from_bytes] *)
Definition packet_from_bytes (bytes : list Z) : Exec (io_result Packet.t) :=
  let! header := unwrap_res (header_try_from_bytes bytes) in
  let body_bytes := body_slice header bytes in
  let! r := from_id (Header.id header) (Header.frequency header) body_bytes in
  match r with
  | Err e => Done (Err e)
  | Ok body => Done (Ok {| Packet.header := header; Packet.body := body |})
  end.

(** [Packet::to_bytes] *)
Definition packet_to_bytes (p : Packet.t) : list Z :=
  header_to_bytes (Packet.header p) ++ packet_type_to_bytes (Packet.body p).
End PacketCodec.

(** ** [mailbox.rs] messages and [errors.rs] *)

Module LoginResponse.
Record t : Type := mk {
  sim_ip : option string;
  sim_port : option Z;
  agent_id : option Uuid;
  session_id : option Uuid;
  circuit_code : Z
}.
End LoginResponse.

Module Session.
Record t : Type := mk {
  server_socket : Z;
  url : string;
  agent_id : Uuid;
  session_id : Uuid;
  socket : option unit
}.
End Session.

Inductive UiEventTypes : Type :=
| LoginResponseEvent
| OtherUiEvent.

Module UiMessage.
Record t : Type := mk {
  message_type : UiEventTypes;
  message : list Z
}.
End UiMessage.

(** What the Mailbox actor receives. *)
Inductive MailMsg : Type :=
| MUi (m : UiMessage.t)
| MSession (s : Session.t)
| MPacket (p : Packet.t).

(** [actix::MailboxError], the failure of an awaited [send]. *)
Inductive ActixMailboxError : Type :=
| Closed
| Timeout.

Module SessionError.
Inductive t : Type :=
| Login (reason : string)
| Mailbox (e : ActixMailboxError)
| CircuitCode (e : ActixMailboxError)
| CompleteAgentMovement (e : ActixMailboxError).
End SessionError.

(** ** The state monad of the session crate

    The state is the log of messages handed to the Mailbox, oldest first.  A
    panic ends the computation and keeps the log of what was sent before it. *)

Definition M (A : Type) : Type := list MailMsg -> Exec A * list MailMsg.

Definition ret {A} (a : A) : M A := fun t => (Done a, t).

Definition bind {A B} (m : M A) (k : A -> M B) : M B :=
  fun t =>
    match m t with
    | (Done a, t') => k a t'
    | (Panic, t') => (Panic, t')
    end.

Notation "x <- m ;; k" := (bind m (fun x => k))
  (at level 61, m at next level, right associativity).

(** Run a pure, possibly panicking step. *)
Definition lift {A} (e : Exec A) : M A := fun t => (e, t).

Section Session.
(** [login_with_creds]: the remote authentication call (spawn_blocking and
    its join error folded in). *)
Variable login_with_creds : Login.t -> result LoginResponse.t SessionError.t.
(** [serde_json::to_string(&response).unwrap().into_bytes()] *)
Variable serialize_response : LoginResponse.t -> list Z.
(** Outcome of the awaited [send] of the [n]-th message the Mailbox is
    handed ([None]: accepted). *)
Variable send_outcome : nat -> option ActixMailboxError.
(** The header of [Packet::new_complete_agent_movement]. *)
Variable cam_header : Header.t.

(** [mailbox_addr.send(m).await] *)
Definition send (m : MailMsg) : M (result unit ActixMailboxError) :=
  fun t =>
    (Done (match send_outcome (length t) with
           | None => Ok tt
           | Some e => Err e
           end), t ++ [m]).

(** [mailbox_addr.do_send(m)]: fire and forget. *)
Definition do_send (m : MailMsg) : M unit := fun t => (Done tt, t ++ [m]).

(** Modelled from the spec: [Packet::new_complete_agent_movement]
    (complete_agent_movement.rs is not among the sources): a
    CompleteAgentMovement-class packet carrying circuit code, session id
    and agent id. *)
Definition new_complete_agent_movement (d : CompleteAgentMovementData.t) : Packet.t :=
  {| Packet.header := cam_header;
     Packet.body := PacketType.CompleteAgentMovement d |}.

(** [handle_login] *)
Definition handle_login (login_data : Login.t) : M (result unit SessionError.t) :=
  match login_with_creds login_data with
  | Err error => ret (Err error)
  | Ok response =>
      let serialized := serialize_response response in
      _ <- send (MUi {| UiMessage.message_type := LoginResponseEvent;
                        UiMessage.message := serialized |}) ;;
      (* a failed notification is only logged *)
      let login_response := response in
      server_socket <- lift (unwrap (LoginResponse.sim_port login_response)) ;;
      url <- lift (unwrap (LoginResponse.sim_ip login_response)) ;;
      agent_id <- lift (unwrap (LoginResponse.agent_id login_response)) ;;
      session_id <- lift (unwrap (LoginResponse.session_id login_response)) ;;
      r1 <- send (MSession {| Session.server_socket := server_socket;
                              Session.url := url;
                              Session.agent_id := agent_id;
                              Session.session_id := session_id;
                              Session.socket := None |}) ;;
      match r1 with
      | Err e => ret (Err (SessionError.Mailbox e))
      | Ok _ =>
          session_id <- lift (unwrap (LoginResponse.session_id login_response)) ;;
          agent_id <- lift (unwrap (LoginResponse.agent_id login_response)) ;;
          r2 <- send (MPacket (new_circuit_code
                   {| CircuitCodeData.code := LoginResponse.circuit_code login_response;
                      CircuitCodeData.session_id := session_id;
                      CircuitCodeData.id := agent_id |})) ;;
          match r2 with
          | Err e => ret (Err (SessionError.CircuitCode e))
          | Ok _ =>
              session_id <- lift (unwrap (LoginResponse.session_id login_response)) ;;
              agent_id <- lift (unwrap (LoginResponse.agent_id login_response)) ;;
              r3 <- send (MPacket (new_complete_agent_movement
                       {| CompleteAgentMovementData.circuit_code :=
                            LoginResponse.circuit_code login_response;
                          CompleteAgentMovementData.session_id := session_id;
                          CompleteAgentMovementData.agent_id := agent_id |})) ;;
              match r3 with
              | Err e => ret (Err (SessionError.CompleteAgentMovement e))
              | Ok _ => ret (Ok tt)
              end
          end
      end
  end.

(** The message registry used by the bridge's [Packet::from_bytes]. *)
Variable from_id : Z -> PacketFrequency -> list Z -> Exec (io_result PacketType.t).

(** What one [socket.recv_from] of the bridge loop yields. *)
Inductive RecvEvent : Type :=
| Datagram (bytes : list Z)
| RecvError.

(** One iteration of the [loop] of [listen_for_ui_messages].  The receive
    buffer holds 1024 bytes, so a longer datagram is cut to its first 1024. *)
Definition bridge_iter (ev : RecvEvent) : M unit :=
  match ev with
  | RecvError => ret tt
  | Datagram d =>
      let buf := firstn 1024 d in
      r <- lift (packet_from_bytes from_id buf) ;;
      match r with
      | Err _ => ret tt
      | Ok packet =>
          match Packet.body packet with
          | PacketType.Login login =>
              _ <- handle_login login ;; ret tt
          | _ => do_send (MPacket packet)
          end
      end
  end.

(** The loop run over a finite prefix of the received datagrams. *)
Fixpoint bridge_loop (evs : list RecvEvent) : M unit :=
  match evs with
  | [] => ret tt
  | ev :: evs' => _ <- bridge_iter ev ;; bridge_loop evs'
  end.

End Session.

(** ** Concrete instances for evaluating the model *)

(** A registry with CircuitCode at (Low, 3); every other pair is unknown. *)
Definition sample_from_id (id : Z) (fr : PacketFrequency) (body : list Z)
  : Exec (io_result PacketType.t) :=
  if frequency_eqb fr Low && (id =? 3) then
    let! r := circuit_code_from_bytes body in
    Done (match r with
          | Ok c => Ok (PacketType.CircuitCode c)
          | Err e => Err e
          end)
  else Done (Err UnknownMessageType).

Definition sample_uuid (b : Z) : Uuid := mk_uuid (repeat b 16).

Definition sample_circuit_code : CircuitCodeData.t :=
  {| CircuitCodeData.code := 16909060;  (* 0x01020304 *)
     CircuitCodeData.session_id := sample_uuid 170;
     CircuitCodeData.id := sample_uuid 187 |}.

(** A CircuitCode datagram: reliable flag, sequence number 1, extra byte 0,
    Low identifier [FF FF 00 03], then the 36-byte body. *)
Definition sample_circuit_code_datagram : list Z :=
  [64; 0; 0; 0; 1; 0; 255; 255; 0; 3] ++ circuit_code_to_bytes sample_circuit_code.

Definition sample_login : Login.t :=
  {| Login.first := "default"%string; Login.last := "user"%string; Login.passwd := "password"%string;
     Login.start := "home"%string; Login.channel := "benthic"%string;
     Login.agree_to_tos := true; Login.read_critical := true;
     Login.url := "http://127.0.0.1:9000"%string |}.

Definition sample_response : LoginResponse.t :=
  {| LoginResponse.sim_ip := Some "127.0.0.1"%string;
     LoginResponse.sim_port := Some 13000;
     LoginResponse.agent_id := Some (sample_uuid 187);
     LoginResponse.session_id := Some (sample_uuid 170);
     LoginResponse.circuit_code := 16909060 |}.

Definition sample_cam_header : Header.t :=
  {| Header.id := 249; Header.frequency := Low; Header.reliable := true;
     Header.sequence_number := 0; Header.appended_acks := false;
     Header.zerocoded := false; Header.resent := false;
     Header.ack_list := None; Header.size := None |}.

Definition all_accepted (_ : nat) : option ActixMailboxError := None.

(** The Mailbox refuses the [k]-th message it is handed and accepts the rest. *)
Definition refuse_at (k : nat) (n : nat) : option ActixMailboxError :=
  if (n =? k)%nat then Some Closed else None.

Definition sample_auth (_ : Login.t) : result LoginResponse.t SessionError.t :=
  Ok sample_response.

(** The same response without its [session_id]. *)
Definition sample_response_no_session : LoginResponse.t :=
  {| LoginResponse.sim_ip := LoginResponse.sim_ip sample_response;
     LoginResponse.sim_port := LoginResponse.sim_port sample_response;
     LoginResponse.agent_id := LoginResponse.agent_id sample_response;
     LoginResponse.session_id := None;
     LoginResponse.circuit_code := LoginResponse.circuit_code sample_response |}.

Definition sample_auth_no_session (_ : Login.t) : result LoginResponse.t SessionError.t :=
  Ok sample_response_no_session.

(** Stand-in for the JSON text of a response: the bytes of [{}]. *)
Definition sample_serialize (_ : LoginResponse.t) : list Z := [123; 125].

(** The packet [Packet::from_bytes] decodes from [sample_circuit_code_datagram]. *)
Definition sample_circuit_code_packet : Packet.t :=
  {| Packet.header :=
       {| Header.id := 3; Header.frequency := Low; Header.reliable := true;
          Header.sequence_number := 1; Header.appended_acks := false;
          Header.zerocoded := false; Header.resent := false;
          Header.ack_list := None; Header.size := Some 10%nat |};
     Packet.body := PacketType.CircuitCode sample_circuit_code |}.

(** The same CircuitCode packet with one appended acknowledgment (sequence
    number 7): flags reliable and appended acks, then the ack and its count. *)
Definition sample_acked_datagram : list Z :=
  [80; 0; 0; 0; 1; 0; 255; 255; 0; 3] ++ circuit_code_to_bytes sample_circuit_code
  ++ [0; 0; 0; 7] ++ [1].

(** The header [header_try_from_bytes] reads from [sample_acked_datagram]. *)
Definition sample_acked_header : Header.t :=
  {| Header.id := 3; Header.frequency := Low; Header.reliable := true;
     Header.sequence_number := 1; Header.appended_acks := true;
     Header.zerocoded := false; Header.resent := false;
     Header.ack_list := Some [7]; Header.size := Some 10%nat |}.

(** Does a message carry a packet whose body is a Login? *)
Definition is_login_packet (m : MailMsg) : bool :=
  match m with
  | MPacket p =>
      match Packet.body p with
      | PacketType.Login _ => true
      | _ => false
      end
  | _ => false
  end.

(** A 7-byte datagram: reliable flag, sequence number 1, High identifier 5
    and no body. *)
Definition sample_short_datagram : list Z := [64; 0; 0; 0; 1; 0; 5].

(** A registry that reads every body as the sample Login. *)
Definition sample_login_from_id (_ : Z) (_ : PacketFrequency) (_ : list Z)
  : Exec (io_result PacketType.t) :=
  Done (Ok (PacketType.Login sample_login)).

(** The Login packet [sample_login_from_id] gives for [sample_short_datagram]. *)
Definition sample_login_packet : Packet.t :=
  {| Packet.header :=
       {| Header.id := 5; Header.frequency := High; Header.reliable := true;
          Header.sequence_number := 1; Header.appended_acks := false;
          Header.zerocoded := false; Header.resent := false;
          Header.ack_list := None; Header.size := Some 7%nat |};
     Packet.body := PacketType.Login sample_login |}.

Definition sample_auth_rejected (_ : Login.t) : result LoginResponse.t SessionError.t :=
  Err (SessionError.Login "invalid credentials").

(** What a run appends to the Mailbox log carries no Login packet. *)
Definition no_login_packet (sent : list MailMsg) : bool :=
  forallb (fun m => negb (is_login_packet m)) sent.

(** A message [handle_login] sends agrees with the login response [r]. *)
Definition agrees_with_response (serialize_response : LoginResponse.t -> list Z)
  (r : LoginResponse.t) (m : MailMsg) : Prop :=
  match m with
  | MUi u =>
      UiMessage.message_type u = LoginResponseEvent /\
      UiMessage.message u = serialize_response r
  | MSession s =>
      LoginResponse.sim_port r = Some (Session.server_socket s) /\
      LoginResponse.sim_ip r = Some (Session.url s) /\
      LoginResponse.agent_id r = Some (Session.agent_id s) /\
      LoginResponse.session_id r = Some (Session.session_id s) /\
      Session.socket s = None
  | MPacket p =>
      match Packet.body p with
      | PacketType.CircuitCode c =>
          CircuitCodeData.code c = LoginResponse.circuit_code r /\
          LoginResponse.session_id r = Some (CircuitCodeData.session_id c) /\
          LoginResponse.agent_id r = Some (CircuitCodeData.id c)
      | PacketType.CompleteAgentMovement c =>
          CompleteAgentMovementData.circuit_code c = LoginResponse.circuit_code r /\
          LoginResponse.session_id r = Some (CompleteAgentMovementData.session_id c) /\
          LoginResponse.agent_id r = Some (CompleteAgentMovementData.agent_id c)
      | _ => False
      end
  end.

(** Every value is a [u8]. *)
Definition bytes_wf (l : list Z) : bool := forallb (fun b => (0 <=? b) && (b <? 256)) l.

(** ** Helper lemmas *)

Lemma u32_le_roundtrip (c : Z) :
  0 <= c < 2^32 -> u32_from_le_bytes (u32_to_le_bytes c) = c.
Proof.
  intros Hc. unfold u32_to_le_bytes, u32_from_le_bytes.
  change 255 with (Z.ones 8).
  rewrite !Z.land_ones by lia.
  rewrite !Z.shiftr_div_pow2 by lia.
  change (2^8) with 256. change (2^16) with (256 * 256). change (2^24) with (256 * 256 * 256).
  rewrite <- !Z.div_div by lia.
  pose proof (Z.div_mod c 256 ltac:(lia)) as E1.
  pose proof (Z.div_mod (c / 256) 256 ltac:(lia)) as E2.
  pose proof (Z.div_mod (c / 256 / 256) 256 ltac:(lia)) as E3.
  assert (Hq : 0 <= c / 256 / 256 / 256 < 256).
  { rewrite !Z.div_div by lia.
    split; [apply Z.div_pos; lia | apply Z.div_lt_upper_bound; lia]. }
  rewrite (Z.mod_small (c / 256 / 256 / 256) 256 Hq).
  lia.
Qed.

Lemma circuit_code_from_bytes_eq (bytes : list Z) :
  circuit_code_from_bytes bytes =
  if (length bytes <? 36)%nat then Panic
  else Done (Ok {| CircuitCodeData.code := u32_from_le_bytes (firstn 4 bytes);
                   CircuitCodeData.session_id := mk_uuid (firstn 16 (skipn 4 bytes));
                   CircuitCodeData.id := mk_uuid (firstn 16 (skipn 20 bytes)) |}).
Proof.
  unfold circuit_code_from_bytes, slice, try_into_array4, uuid_from_slice.
  destruct (Nat.leb_spec 4 (length bytes));
  destruct (Nat.leb_spec 20 (length bytes));
  destruct (Nat.leb_spec 36 (length bytes));
  destruct (Nat.ltb_spec (length bytes) 36); try lia;
  cbn [andb Nat.leb exec_bind unwrap unwrap_res Nat.sub]; try reflexivity;
  rewrite skipn_O, !length_firstn, ?length_skipn, !Nat.min_l by lia;
  reflexivity.
Qed.

Lemma circuit_code_to_bytes_length (v : CircuitCodeData.t) :
  circuit_code_wf v = true -> length (circuit_code_to_bytes v) = 36%nat.
Proof.
  destruct v as [c [s] [i]]. unfold circuit_code_wf, uuid_wf, is_u32. simpl.
  intros H. apply andb_prop in H as [H Hi]. apply andb_prop in H as [_ Hs].
  apply Nat.eqb_eq in Hs, Hi.
  unfold circuit_code_to_bytes, as_bytes. simpl. rewrite length_app, Hs, Hi. reflexivity.
Qed.

Lemma read_be_u32s_length (n : nat) (bytes l : list Z) :
  read_be_u32s n bytes = Some l -> length l = n.
Proof.
  revert bytes l. induction n as [|n IH]; intros bytes l H; simpl in H.
  - injection H as <-. reflexivity.
  - destruct bytes as [|b0 [|b1 [|b2 [|b3 rest]]]]; try discriminate H.
    destruct (read_be_u32s n rest) as [l'|] eqn:E; [| discriminate H].
    injection H as <-. simpl. f_equal. exact (IH _ _ E).
Qed.

Lemma header_try_from_bytes_acks (bytes : list Z) (h : Header.t) :
  header_try_from_bytes bytes = Ok h -> Header.appended_acks h = true ->
  exists (s : nat) (acks : list Z),
    Header.size h = Some s /\ Header.ack_list h = Some acks /\
    (s + 4 * length acks + 1 <= length bytes)%nat.
Proof.
  intros H Ha. unfold header_try_from_bytes in H.
  destruct bytes as [|f [|s0 [|s1 [|s2 [|s3 [|ex rest]]]]]]; try discriminate H.
  destruct (read_message_id rest) as [[[i fr] sz]|]; [| discriminate H].
  destruct (Z.testbit f 4) eqn:Eb.
  - destruct (rev _) as [|cnt tl]; [discriminate H |].
    match type of H with
    | context [if (?a <=? ?b)%nat then _ else _] => destruct (Nat.leb_spec a b) as [Hle|]
    end; [| discriminate H].
    destruct (read_be_u32s _ _) as [acks|] eqn:Er; [| discriminate H].
    cbn [option_map] in H. injection H as <-.
    exists sz, acks. split; [reflexivity | split; [reflexivity |]].
    rewrite (read_be_u32s_length _ _ _ Er). exact Hle.
  - injection H as <-. cbn in Ha. discriminate Ha.
Qed.

Lemma header_try_from_bytes_size (bytes : list Z) (h : Header.t) :
  header_try_from_bytes bytes = Ok h -> exists s, Header.size h = Some s.
Proof.
  intros H. unfold header_try_from_bytes in H.
  destruct bytes as [|f [|s0 [|s1 [|s2 [|s3 [|ex rest]]]]]]; try discriminate H.
  destruct (read_message_id rest) as [[[i fr] sz]|]; [| discriminate H].
  destruct (if Z.testbit f 4 then _ else _) as [al|]; [| discriminate H].
  injection H as <-. exists sz. reflexivity.
Qed.

(** * Claims *)

(** ** CircuitCode body codec *)

(** C3: [CircuitCodeData::from_bytes] panics (out-of-range slice) on every
    input shorter than 36 bytes and never returns an error value; on 36 bytes
    or more it succeeds, decoding the first 36 bytes and ignoring the rest. *)
Theorem circuit_code_from_bytes_by_length (bytes : list Z) :
  circuit_code_from_bytes bytes =
  if (length bytes <? 36)%nat then Panic
  else Done (Ok {| CircuitCodeData.code := u32_from_le_bytes (firstn 4 bytes);
                   CircuitCodeData.session_id := mk_uuid (firstn 16 (skipn 4 bytes));
                   CircuitCodeData.id := mk_uuid (firstn 16 (skipn 20 bytes)) |}).
Proof. apply circuit_code_from_bytes_eq. Qed.

(** C3 (counterexample): 35 bytes make the decoder panic rather than return
    [BodyTooShort], and 37 bytes decode successfully. *)
Lemma circuit_code_from_bytes_35_37 :
  circuit_code_from_bytes (repeat 0 35) = Panic /\
  circuit_code_from_bytes (repeat 0 37) =
    Done (Ok {| CircuitCodeData.code := 0;
                CircuitCodeData.session_id := sample_uuid 0;
                CircuitCodeData.id := sample_uuid 0 |}).
Proof. split; reflexivity. Qed.

(** C4: decoding the encoding of a CircuitCodeData value (a [u32] code and
    two 16-byte UUIDs) gives back the same value. *)
Theorem circuit_code_roundtrip (v : CircuitCodeData.t) (Hwf : circuit_code_wf v = true) :
  circuit_code_from_bytes (circuit_code_to_bytes v) = Done (Ok v).
Proof.
  pose proof (circuit_code_to_bytes_length v Hwf) as Hlen.
  rewrite circuit_code_from_bytes_eq, Hlen. cbv [Nat.ltb Nat.leb].
  destruct v as [c [s] [i]]. unfold circuit_code_wf, uuid_wf, is_u32 in Hwf. simpl in Hwf.
  apply andb_prop in Hwf as [H Hi]. apply andb_prop in H as [Hc Hs].
  apply andb_prop in Hc as [Hc0 Hc1]. apply Z.leb_le in Hc0. apply Z.ltb_lt in Hc1.
  apply Nat.eqb_eq in Hs, Hi.
  unfold circuit_code_to_bytes, as_bytes. cbn [CircuitCodeData.code
    CircuitCodeData.session_id CircuitCodeData.id uuid_bytes].
  change (firstn 4 (u32_to_le_bytes c ++ s ++ i)) with (u32_to_le_bytes c).
  change (skipn 4 (u32_to_le_bytes c ++ s ++ i)) with (s ++ i).
  change (skipn 20 (u32_to_le_bytes c ++ s ++ i)) with (skipn 16 (s ++ i)).
  rewrite u32_le_roundtrip by lia.
  rewrite firstn_app, Hs, Nat.sub_diag, firstn_O, app_nil_r, firstn_all2 by lia.
  rewrite skipn_app, Hs, Nat.sub_diag, skipn_O, skipn_all2, app_nil_l, firstn_all2 by lia.
  reflexivity.
Qed.

Lemma circuit_code_roundtrip_witness :
  circuit_code_wf sample_circuit_code = true /\
  circuit_code_from_bytes (circuit_code_to_bytes sample_circuit_code)
    = Done (Ok sample_circuit_code).
Proof.
  split; [reflexivity | apply circuit_code_roundtrip; reflexivity].
Defined.

(** C5: the encoding is exactly 36 bytes: the code's four bytes least
    significant first, then the 16 raw bytes of [session_id], then the 16 raw
    bytes of [id]. *)
Theorem circuit_code_to_bytes_layout (v : CircuitCodeData.t)
  (Hwf : circuit_code_wf v = true) :
  let c := CircuitCodeData.code v in
  circuit_code_to_bytes v =
    [c mod 256; (c / 2^8) mod 256; (c / 2^16) mod 256; (c / 2^24) mod 256]
    ++ uuid_bytes (CircuitCodeData.session_id v)
    ++ uuid_bytes (CircuitCodeData.id v)
  /\ length (circuit_code_to_bytes v) = 36%nat.
Proof.
  intros c. split; [| apply circuit_code_to_bytes_length; exact Hwf].
  unfold circuit_code_to_bytes, u32_to_le_bytes, as_bytes. fold c.
  change 255 with (Z.ones 8).
  rewrite !Z.land_ones, !Z.shiftr_div_pow2 by lia. reflexivity.
Qed.

Lemma circuit_code_to_bytes_layout_witness :
  circuit_code_wf sample_circuit_code = true /\
  circuit_code_to_bytes sample_circuit_code =
    [4; 3; 2; 1] ++ repeat 170 16 ++ repeat 187 16 /\
  length (circuit_code_to_bytes sample_circuit_code) = 36%nat.
Proof.
  split; [reflexivity |].
  destruct (circuit_code_to_bytes_layout sample_circuit_code eq_refl) as [E L].
  split; [rewrite E; reflexivity | exact L].
Defined.

(** C10: [Packet::new_circuit_code] builds the header id 3, Low, reliable,
    sequence number 0, not resent, not zerocoded, no appended acks and no ack
    list (so an ack list is present exactly when [appended_acks] is set), with
    the given data as its CircuitCode body. *)
Theorem new_circuit_code_header (v : CircuitCodeData.t) :
  let h := Packet.header (new_circuit_code v) in
  Header.id h = 3 /\ Header.frequency h = Low /\ Header.reliable h = true /\
  Header.sequence_number h = 0 /\ Header.resent h = false /\
  Header.zerocoded h = false /\ Header.appended_acks h = false /\
  Header.ack_list h = None /\
  is_some (Header.ack_list h) = Header.appended_acks h /\
  Packet.body (new_circuit_code v) = PacketType.CircuitCode v.
Proof. simpl. repeat split. Qed.

(** ** Session bootstrap *)

Section Bootstrap.
Variable login_with_creds : Login.t -> result LoginResponse.t SessionError.t.
Variable serialize_response : LoginResponse.t -> list Z.
Variable send_outcome : nat -> option ActixMailboxError.
Variable cam_header : Header.t.

Let hl := handle_login login_with_creds serialize_response send_outcome cam_header.

Definition ui_notification (r : LoginResponse.t) : MailMsg :=
  MUi {| UiMessage.message_type := LoginResponseEvent;
         UiMessage.message := serialize_response r |}.

Definition session_msg (r : LoginResponse.t) port ip aid sid : MailMsg :=
  MSession {| Session.server_socket := port; Session.url := ip;
              Session.agent_id := aid; Session.session_id := sid;
              Session.socket := None |}.

Definition circuit_code_msg (r : LoginResponse.t) aid sid : MailMsg :=
  MPacket (new_circuit_code
             {| CircuitCodeData.code := LoginResponse.circuit_code r;
                CircuitCodeData.session_id := sid;
                CircuitCodeData.id := aid |}).

Definition cam_msg (r : LoginResponse.t) aid sid : MailMsg :=
  MPacket (new_complete_agent_movement cam_header
             {| CompleteAgentMovementData.circuit_code := LoginResponse.circuit_code r;
                CompleteAgentMovementData.session_id := sid;
                CompleteAgentMovementData.agent_id := aid |}).

Lemma handle_login_success_eq (l : Login.t) (r : LoginResponse.t) (t : list MailMsg)
  port ip aid sid :
  login_with_creds l = Ok r ->
  LoginResponse.sim_port r = Some port -> LoginResponse.sim_ip r = Some ip ->
  LoginResponse.agent_id r = Some aid -> LoginResponse.session_id r = Some sid ->
  let n := length t in
  hl l t =
    match send_outcome (S n) with
    | Some e => (Done (Err (SessionError.Mailbox e)),
                 t ++ [ui_notification r; session_msg r port ip aid sid])
    | None =>
        match send_outcome (S (S n)) with
        | Some e => (Done (Err (SessionError.CircuitCode e)),
                     t ++ [ui_notification r; session_msg r port ip aid sid;
                           circuit_code_msg r aid sid])
        | None =>
            (Done (match send_outcome (S (S (S n))) with
                   | Some e => Err (SessionError.CompleteAgentMovement e)
                   | None => Ok tt
                   end),
             t ++ [ui_notification r; session_msg r port ip aid sid;
                   circuit_code_msg r aid sid; cam_msg r aid sid])
        end
    end.
Proof.
  intros Hauth Hport Hip Haid Hsid. cbv zeta. subst hl.
  unfold handle_login. rewrite Hauth.
  unfold bind, send, lift, ret. cbn [unwrap]. rewrite Hport, Hip, Haid, Hsid.
  cbn [unwrap]. rewrite !length_app. cbn [length]. rewrite Nat.add_1_r.
  destruct (send_outcome (S (length t))) as [e1|].
  - rewrite <- app_assoc. reflexivity.
  - rewrite !length_app. cbn [length]. replace (length t + 1 + 1)%nat with (S (S (length t))) by lia.
    destruct (send_outcome (S (S (length t)))) as [e2|].
    + rewrite <- !app_assoc. reflexivity.
    + rewrite !length_app. cbn [length].
      replace (length t + 1 + 1 + 1)%nat with (S (S (S (length t)))) by lia.
      destruct (send_outcome (S (S (S (length t))))); rewrite <- !app_assoc; reflexivity.
Qed.
(** C1: after a successful authentication with every identity field
    present, [handle_login] hands the Mailbox, one awaited send after the
    other, the UiMessage notification with the serialized response, the
    Session, the CircuitCode packet and the CompleteAgentMovement packet, in
    that order; it stops after the Session when that send is refused and
    after the CircuitCode packet when that one is refused, so all four are
    sent exactly when those two sends are accepted. *)
Theorem handle_login_send_order (l : Login.t) (r : LoginResponse.t)
  (t : list MailMsg) port ip aid sid
  (Hauth : login_with_creds l = Ok r)
  (Hport : LoginResponse.sim_port r = Some port)
  (Hip : LoginResponse.sim_ip r = Some ip)
  (Haid : LoginResponse.agent_id r = Some aid)
  (Hsid : LoginResponse.session_id r = Some sid) :
  let n := length t in
  snd (hl l t) =
    t ++ firstn (match send_outcome (S n), send_outcome (S (S n)) with
                 | None, None => 4
                 | None, Some _ => 3
                 | Some _, _ => 2
                 end)
           [ui_notification r; session_msg r port ip aid sid;
            circuit_code_msg r aid sid; cam_msg r aid sid].
Proof.
  cbv zeta.
  rewrite (handle_login_success_eq l r t port ip aid sid Hauth Hport Hip Haid Hsid).
  destruct (send_outcome (S (length t))); [reflexivity |].
  destruct (send_outcome (S (S (length t)))); reflexivity.
Qed.

(** C2: when authentication succeeds but [sim_port], [sim_ip], [agent_id]
    or [session_id] is absent, [handle_login] first sends the UiMessage
    notification and then panics on the [unwrap] of the absent field: no
    error value is returned and nothing else is sent. *)
Theorem handle_login_missing_field_panics (l : Login.t) (r : LoginResponse.t)
  (t : list MailMsg)
  (Hauth : login_with_creds l = Ok r)
  (Hmissing : LoginResponse.sim_port r = None \/ LoginResponse.sim_ip r = None \/
              LoginResponse.agent_id r = None \/ LoginResponse.session_id r = None) :
  hl l t = (Panic, t ++ [ui_notification r]).
Proof.
  subst hl. unfold handle_login. rewrite Hauth. unfold bind, send, lift, ret.
  destruct (LoginResponse.sim_port r); destruct (LoginResponse.sim_ip r);
  destruct (LoginResponse.agent_id r); destruct (LoginResponse.session_id r);
  cbn [unwrap]; try reflexivity;
  destruct Hmissing as [H|[H|[H|H]]]; discriminate H.
Qed.

End Bootstrap.

Lemma handle_login_send_order_witness :
  sample_auth sample_login = Ok sample_response /\
  snd (handle_login sample_auth sample_serialize all_accepted sample_cam_header
         sample_login []) =
    [ui_notification sample_serialize sample_response;
     session_msg sample_response 13000 "127.0.0.1" (sample_uuid 187) (sample_uuid 170);
     circuit_code_msg sample_response (sample_uuid 187) (sample_uuid 170);
     cam_msg sample_cam_header sample_response (sample_uuid 187) (sample_uuid 170)].
Proof.
  split; [reflexivity |].
  exact (handle_login_send_order sample_auth sample_serialize all_accepted
           sample_cam_header sample_login sample_response [] 13000 "127.0.0.1"
           (sample_uuid 187) (sample_uuid 170)
           eq_refl eq_refl eq_refl eq_refl eq_refl).
Defined.

(** C1 (counterexample): the authentication succeeds with every field, but
    the Mailbox refuses the Session; only two messages are sent. *)
Lemma handle_login_session_refused_two_sends :
  handle_login sample_auth sample_serialize (refuse_at 1) sample_cam_header
    sample_login [] =
  (Done (Err (SessionError.Mailbox Closed)),
   [ui_notification sample_serialize sample_response;
    session_msg sample_response 13000 "127.0.0.1" (sample_uuid 187) (sample_uuid 170)]).
Proof. reflexivity. Qed.

Lemma handle_login_missing_field_panics_witness :
  sample_auth_no_session sample_login = Ok sample_response_no_session /\
  handle_login sample_auth_no_session sample_serialize all_accepted sample_cam_header
    sample_login [] = (Panic, [ui_notification sample_serialize sample_response_no_session]).
Proof.
  split; [reflexivity |].
  exact (handle_login_missing_field_panics sample_auth_no_session sample_serialize
           all_accepted sample_cam_header sample_login sample_response_no_session []
           eq_refl (or_intror (or_intror (or_intror eq_refl)))).
Defined.

(** C2 (counterexample): a response without [session_id] makes
    [handle_login] send the notification and then panic; no error value. *)
Lemma handle_login_no_session_id_sends_then_panics :
  handle_login sample_auth_no_session sample_serialize all_accepted sample_cam_header
    sample_login [] = (Panic, [ui_notification sample_serialize sample_response_no_session]).
Proof. reflexivity. Qed.



(** ** Control-channel bridge *)

Section Bridge.
Variable login_with_creds : Login.t -> result LoginResponse.t SessionError.t.
Variable serialize_response : LoginResponse.t -> list Z.
Variable send_outcome : nat -> option ActixMailboxError.
Variable cam_header : Header.t.
Variable from_id : Z -> PacketFrequency -> list Z -> Exec (io_result PacketType.t).
Variable header_to_bytes : Header.t -> list Z.
Variable login_to_bytes : Login.t -> list Z.
Variable cam_to_bytes : CompleteAgentMovementData.t -> list Z.
Variable other_to_bytes : string -> list Z -> list Z.

Let hl := handle_login login_with_creds serialize_response send_outcome cam_header.
Let iter := bridge_iter login_with_creds serialize_response send_outcome cam_header from_id.
Let to_bytes := packet_to_bytes header_to_bytes login_to_bytes cam_to_bytes other_to_bytes.

Lemma handle_login_sends_no_login_packet (l : Login.t) (t : list MailMsg) :
  exists sent, snd (hl l t) = t ++ sent /\
               forallb (fun m => negb (is_login_packet m)) sent = true.
Proof.
  subst hl. unfold handle_login, bind, send, lift, ret.
  destruct (login_with_creds l) as [r|e]; [| exists []; split; [rewrite app_nil_r |]; reflexivity].
  destruct (LoginResponse.sim_port r); [| eexists; split; [reflexivity | reflexivity]].
  destruct (LoginResponse.sim_ip r); [| eexists; split; [reflexivity | reflexivity]].
  destruct (LoginResponse.agent_id r); [| eexists; split; [reflexivity | reflexivity]].
  destruct (LoginResponse.session_id r); [| eexists; split; [reflexivity | reflexivity]].
  cbn [unwrap].
  repeat match goal with
         | |- context [match send_outcome ?k with _ => _ end] => destruct (send_outcome k)
         end;
  eexists; (split; [rewrite <- !app_assoc; reflexivity | reflexivity]).
Qed.

(** C6: a datagram that decodes to a packet with a Login body is handed to
    [handle_login] and no packet with a Login body reaches the Mailbox;
    any other decoded packet is forwarded to the Mailbox as it is, so the
    forwarded packet re-encodes to the same bytes as the decoded one. *)
Theorem bridge_login_interception (d : list Z) (p : Packet.t) (t : list MailMsg)
  (Hdec : packet_from_bytes from_id (firstn 1024 d) = Done (Ok p)) :
  match Packet.body p with
  | PacketType.Login login =>
      snd (iter (Datagram d) t) = snd (hl login t) /\
      exists sent, snd (iter (Datagram d) t) = t ++ sent /\
                   forallb (fun m => negb (is_login_packet m)) sent = true
  | _ =>
      exists q, iter (Datagram d) t = (Done tt, t ++ [MPacket q]) /\
                q = p /\ to_bytes q = to_bytes p
  end.
Proof.
  unfold iter, bridge_iter, bind, lift. rewrite Hdec.
  destruct p as [h b]. cbn [Packet.body].
  destruct b as [login | c | c | nm raw];
    try (eexists; split; [reflexivity | split; reflexivity]).
  destruct (handle_login_sends_no_login_packet login t) as [sent [Hs Hf]].
  unfold hl in Hs |- *.
  destruct (handle_login login_with_creds serialize_response send_outcome cam_header
              login t) as [[] t'];
    cbn [snd] in Hs |- *; (split; [reflexivity |]); exists sent; split; assumption.
Qed.
End Bridge.

Lemma bridge_login_interception_witness :
  packet_from_bytes sample_from_id (firstn 1024 sample_circuit_code_datagram)
    = Done (Ok sample_circuit_code_packet) /\
  bridge_iter sample_auth sample_serialize all_accepted sample_cam_header sample_from_id
    (Datagram sample_circuit_code_datagram) []
    = (Done tt, [MPacket sample_circuit_code_packet]).
Proof.
  split; [vm_compute; reflexivity |].
  destruct (bridge_login_interception sample_auth sample_serialize all_accepted
              sample_cam_header sample_from_id (fun _ => []) (fun _ => [])
              (fun _ => []) (fun _ r => r) sample_circuit_code_datagram
              sample_circuit_code_packet [] ltac:(vm_compute; reflexivity))
    as [q [Hq [Hqp _]]].
  rewrite Hq, Hqp. reflexivity.
Defined.

(** ** Body slice of [Packet::from_bytes] *)

(** C9: [Packet::from_bytes] hands the registry every byte from
    [header.size] to the end of the buffer, and no bytes when [header.size]
    is at least the buffer's length; when [appended_acks] is set, the
    trailing acknowledgments (the 4-byte sequence numbers and the count byte)
    stay at the end of that body slice. *)
Theorem packet_body_slice_keeps_acks
  (from_id : Z -> PacketFrequency -> list Z -> Exec (io_result PacketType.t))
  (bytes : list Z) (h : Header.t)
  (Hh : header_try_from_bytes bytes = Ok h) :
  exists s : nat,
    Header.size h = Some s /\
    body_slice h bytes = skipn s bytes /\
    ((length bytes <= s)%nat -> body_slice h bytes = []) /\
    packet_from_bytes from_id bytes =
      (let! r := from_id (Header.id h) (Header.frequency h) (body_slice h bytes) in
       match r with
       | Err e => Done (Err e)
       | Ok body => Done (Ok {| Packet.header := h; Packet.body := body |})
       end) /\
    (Header.appended_acks h = true ->
     exists (acks : list Z) (pre : list Z),
       Header.ack_list h = Some acks /\
       length (skipn (length bytes - 1 - 4 * length acks)%nat bytes) = (4 * length acks + 1)%nat /\
       body_slice h bytes = pre ++ skipn (length bytes - 1 - 4 * length acks)%nat bytes).
Proof.
  destruct (header_try_from_bytes_size bytes h Hh) as [s Hs].
  assert (Hslice : body_slice h bytes = skipn s bytes).
  { unfold body_slice. rewrite Hs.
    destruct (Nat.ltb_spec s (length bytes)); [reflexivity |].
    symmetry. apply skipn_all2. lia. }
  exists s. split; [exact Hs |]. split; [exact Hslice |]. split.
  { intros Hle. rewrite Hslice. apply skipn_all2. exact Hle. }
  split; [unfold packet_from_bytes; rewrite Hh; reflexivity |].
  intros Hacks.
  destruct (header_try_from_bytes_acks bytes h Hh Hacks) as [s' [acks [Hs' [Ha Hle]]]].
  rewrite Hs in Hs'. injection Hs' as <-.
  exists acks, (firstn (length bytes - 1 - 4 * length acks - s) (skipn s bytes)).
  split; [exact Ha |]. split; [rewrite length_skipn; lia |].
  rewrite Hslice.
  rewrite <- (firstn_skipn (length bytes - 1 - 4 * length acks - s) (skipn s bytes)) at 1.
  f_equal. rewrite skipn_skipn. f_equal. lia.
Qed.

(** A header-only datagram ([size] equal to its length) hands the registry
    no bytes; a datagram with one appended acknowledgment hands it the bytes
    from offset 10 on. *)
Lemma packet_body_slice_keeps_acks_witness :
  header_try_from_bytes sample_short_datagram = Ok (Packet.header sample_login_packet) /\
  body_slice (Packet.header sample_login_packet) sample_short_datagram = [] /\
  header_try_from_bytes sample_acked_datagram = Ok sample_acked_header /\
  body_slice sample_acked_header sample_acked_datagram = skipn 10 sample_acked_datagram.
Proof.
  split; [vm_compute; reflexivity |]. split.
  { destruct (packet_body_slice_keeps_acks sample_from_id sample_short_datagram
                (Packet.header sample_login_packet) ltac:(vm_compute; reflexivity))
      as [s [Hs [_ [Hnil _]]]].
    apply Hnil. vm_compute in Hs. injection Hs as <-. cbn. lia. }
  split; [vm_compute; reflexivity |].
  destruct (packet_body_slice_keeps_acks sample_from_id sample_acked_datagram
              sample_acked_header ltac:(vm_compute; reflexivity))
    as [s [Hs [Hb _]]].
  vm_compute in Hs. injection Hs as <-. exact Hb.
Defined.

(** C9 (counterexample): for a CircuitCode datagram with one appended
    acknowledgment, the body slice handed to the registry is the 36-byte body
    followed by the acknowledgment [0 0 0 7] and its count byte [1]. *)
Lemma packet_body_slice_acked_sample :
  header_try_from_bytes sample_acked_datagram = Ok sample_acked_header /\
  body_slice sample_acked_header sample_acked_datagram =
    circuit_code_to_bytes sample_circuit_code ++ [0; 0; 0; 7; 1].
Proof. split; vm_compute; reflexivity. Qed.

(** ** Malformed datagrams on the bridge *)

(** C7: a 3-byte datagram is too short for a header; [Packet::from_bytes]
    panics on the [unwrap] of the header decode instead of returning an
    error, which ends the bridge loop: a well-formed CircuitCode datagram
    that would be forwarded on its own is never processed after it. *)
Theorem bridge_malformed_header_panics :
  header_try_from_bytes [64; 0; 0] = Err MalformedHeader /\
  packet_from_bytes sample_from_id [64; 0; 0] = Panic /\
  bridge_loop sample_auth sample_serialize all_accepted sample_cam_header sample_from_id
    [Datagram sample_circuit_code_datagram] []
    = (Done tt, [MPacket sample_circuit_code_packet]) /\
  bridge_loop sample_auth sample_serialize all_accepted sample_cam_header sample_from_id
    [Datagram [64; 0; 0]; Datagram sample_circuit_code_datagram] []
    = (Panic, []) /\
  (forall (rest : list RecvEvent) (t : list MailMsg),
     bridge_loop sample_auth sample_serialize all_accepted sample_cam_header
       sample_from_id (Datagram [64; 0; 0] :: rest) t = (Panic, t)).
Proof.
  split; [vm_compute; reflexivity |]. split; [vm_compute; reflexivity |].
  split; [vm_compute; reflexivity |]. split; [vm_compute; reflexivity |].
  intros rest t. reflexivity.
Qed.

(** * Further properties of the code *)

(** ** CircuitCode codec *)

Ltac split_andb :=
  repeat match goal with
         | H : (_ && _) = true |- _ => apply andb_prop in H as [? ?]
         end.

Lemma firstn_add_split {A} (n m : nat) (l : list A) :
  firstn (n + m) l = firstn n l ++ firstn m (skipn n l).
Proof.
  revert l. induction n as [|n IH]; intros [|x l]; simpl; try reflexivity.
  - rewrite firstn_nil. reflexivity.
  - f_equal. apply IH.
Qed.

Lemma byte_low_mod (lo hi : Z) : 0 <= lo < 256 -> (lo + hi * 256) mod 256 = lo.
Proof. intros H. rewrite Z.mod_add by lia. apply Z.mod_small. exact H. Qed.

Lemma byte_low_div (lo hi : Z) : 0 <= lo < 256 -> (lo + hi * 256) / 256 = hi.
Proof. intros H. rewrite Z.div_add by lia. rewrite Z.div_small by exact H. reflexivity. Qed.

Lemma u32_le_bytes_of_bytes (b0 b1 b2 b3 : Z) :
  bytes_wf [b0; b1; b2; b3] = true ->
  u32_to_le_bytes (u32_from_le_bytes [b0; b1; b2; b3]) = [b0; b1; b2; b3].
Proof.
  unfold bytes_wf. cbn [forallb]. intros H. split_andb.
  repeat match goal with
         | Hb : ((0 <=? _) = true) |- _ => apply Z.leb_le in Hb
         | Hb : ((_ <? 256) = true) |- _ => apply Z.ltb_lt in Hb
         end.
  unfold u32_to_le_bytes, u32_from_le_bytes.
  change 255 with (Z.ones 8).
  rewrite !Z.land_ones, !Z.shiftr_div_pow2 by lia.
  change (2^8) with 256. change (2^16) with 65536. change (2^24) with 16777216.
  replace (b0 + b1 * 256 + b2 * 65536 + b3 * 16777216)
    with (b0 + (b1 + (b2 + b3 * 256) * 256) * 256) by ring.
  change 65536 with (256 * 256). change 16777216 with (256 * 256 * 256).
  rewrite <- !Z.div_div by lia.
  rewrite !byte_low_div by lia. rewrite !byte_low_mod by lia.
  rewrite (Z.mod_small b3) by lia. reflexivity.
Qed.

(** The codec round trip, as a lemma of its own for the proofs below. *)
Lemma circuit_code_decode_encode (v : CircuitCodeData.t) :
  circuit_code_wf v = true ->
  circuit_code_from_bytes (circuit_code_to_bytes v) = Done (Ok v).
Proof.
  intros Hwf. pose proof (circuit_code_to_bytes_length v Hwf) as Hlen.
  rewrite circuit_code_from_bytes_eq, Hlen. cbv [Nat.ltb Nat.leb].
  destruct v as [c [s] [i]]. unfold circuit_code_wf, uuid_wf, is_u32 in Hwf. simpl in Hwf.
  apply andb_prop in Hwf as [H Hi]. apply andb_prop in H as [Hc Hs].
  apply andb_prop in Hc as [Hc0 Hc1]. apply Z.leb_le in Hc0. apply Z.ltb_lt in Hc1.
  apply Nat.eqb_eq in Hs, Hi.
  unfold circuit_code_to_bytes, as_bytes. cbn [CircuitCodeData.code
    CircuitCodeData.session_id CircuitCodeData.id uuid_bytes].
  change (firstn 4 (u32_to_le_bytes c ++ s ++ i)) with (u32_to_le_bytes c).
  change (skipn 4 (u32_to_le_bytes c ++ s ++ i)) with (s ++ i).
  change (skipn 20 (u32_to_le_bytes c ++ s ++ i)) with (skipn 16 (s ++ i)).
  rewrite u32_le_roundtrip by lia.
  rewrite firstn_app, Hs, Nat.sub_diag, firstn_O, app_nil_r, firstn_all2 by lia.
  rewrite skipn_app, Hs, Nat.sub_diag, skipn_O, skipn_all2, app_nil_l, firstn_all2 by lia.
  reflexivity.
Qed.

(** The decoder reads the first 36 bytes only. *)
Lemma circuit_code_from_bytes_app (l extra : list Z) :
  length l = 36%nat ->
  circuit_code_from_bytes (l ++ extra) = circuit_code_from_bytes l.
Proof.
  intros Hl. rewrite !circuit_code_from_bytes_eq, length_app, Hl.
  destruct (Nat.ltb_spec (36 + length extra) 36); [lia |]. cbv [Nat.ltb Nat.leb].
  rewrite firstn_app, Hl. replace (4 - 36)%nat with 0%nat by lia. rewrite firstn_O, app_nil_r.
  rewrite skipn_app, Hl. replace (4 - 36)%nat with 0%nat by lia.
  rewrite (firstn_app 16 (skipn 4 l)), length_skipn, Hl.
  replace (16 - (36 - 4))%nat with 0%nat by lia. rewrite firstn_O, app_nil_r.
  rewrite skipn_app, Hl. replace (20 - 36)%nat with 0%nat by lia.
  rewrite (firstn_app 16 (skipn 20 l)), length_skipn, Hl.
  replace (16 - (36 - 20))%nat with 0%nat by lia. rewrite firstn_O, app_nil_r.
  reflexivity.
Qed.

(** X1: a CircuitCode body followed by any further bytes still decodes to
    the encoded value: the decoder ignores what follows the 36 bytes. *)
Theorem circuit_code_decode_with_trailing (v : CircuitCodeData.t) (extra : list Z)
  (Hwf : circuit_code_wf v = true) :
  circuit_code_from_bytes (circuit_code_to_bytes v ++ extra) = Done (Ok v).
Proof.
  rewrite circuit_code_from_bytes_app by (apply circuit_code_to_bytes_length; exact Hwf).
  apply circuit_code_decode_encode. exact Hwf.
Qed.

Lemma circuit_code_decode_with_trailing_witness :
  circuit_code_wf sample_circuit_code = true /\
  circuit_code_from_bytes (circuit_code_to_bytes sample_circuit_code ++ [9; 9])
    = Done (Ok sample_circuit_code).
Proof.
  split; [reflexivity |].
  exact (circuit_code_decode_with_trailing sample_circuit_code [9; 9] eq_refl).
Defined.

(** X2: the encoding is injective: two well-formed CircuitCode values with
    the same bytes are equal. *)
Theorem circuit_code_to_bytes_injective (v w : CircuitCodeData.t)
  (Hv : circuit_code_wf v = true) (Hw : circuit_code_wf w = true)
  (Heq : circuit_code_to_bytes v = circuit_code_to_bytes w) : v = w.
Proof.
  pose proof (circuit_code_decode_encode v Hv) as Ev.
  rewrite Heq, (circuit_code_decode_encode w Hw) in Ev.
  injection Ev as E. symmetry. exact E.
Qed.

Lemma circuit_code_to_bytes_injective_witness :
  circuit_code_wf sample_circuit_code = true /\ sample_circuit_code = sample_circuit_code.
Proof.
  split; [reflexivity |].
  exact (circuit_code_to_bytes_injective sample_circuit_code sample_circuit_code
           eq_refl eq_refl eq_refl).
Defined.

(** X3: any buffer of at least 36 bytes decodes, and encoding the decoded
    value gives back exactly its first 36 bytes. *)
Theorem circuit_code_encode_decode (bytes : list Z)
  (Hlen : (36 <= length bytes)%nat) (Hwf : bytes_wf bytes = true) :
  exists v, circuit_code_from_bytes bytes = Done (Ok v) /\
            circuit_code_to_bytes v = firstn 36 bytes.
Proof.
  rewrite circuit_code_from_bytes_eq.
  destruct (Nat.ltb_spec (length bytes) 36); [lia |].
  eexists; split; [reflexivity |].
  unfold circuit_code_to_bytes, as_bytes. cbn [CircuitCodeData.code
    CircuitCodeData.session_id CircuitCodeData.id uuid_bytes].
  change 36%nat with (4 + (16 + 16))%nat.
  rewrite firstn_add_split, firstn_add_split, skipn_skipn. f_equal.
  destruct bytes as [|b0 [|b1 [|b2 [|b3 rest]]]]; simpl in Hlen; try lia.
  apply u32_le_bytes_of_bytes.
  unfold bytes_wf in Hwf |- *. cbn [forallb] in Hwf |- *. split_andb.
  repeat (apply andb_true_intro; split); assumption || reflexivity.
Qed.

Lemma circuit_code_encode_decode_witness :
  (36 <= length (repeat 7 40))%nat /\ bytes_wf (repeat 7 40) = true /\
  exists v, circuit_code_from_bytes (repeat 7 40) = Done (Ok v) /\
            circuit_code_to_bytes v = repeat 7 36.
Proof.
  split; [simpl; lia |]. split; [reflexivity |].
  exact (circuit_code_encode_decode (repeat 7 40) ltac:(simpl; lia) eq_refl).
Defined.

(** ** Packet encoding *)

(** X4: the encoding of a packet built by [Packet::new_circuit_code] is the
    header's bytes followed by the 36-byte body, and that body decodes back to
    the data the packet was built from. *)
Theorem new_circuit_code_packet_bytes
  (header_to_bytes : Header.t -> list Z) (login_to_bytes : Login.t -> list Z)
  (cam_to_bytes : CompleteAgentMovementData.t -> list Z)
  (other_to_bytes : string -> list Z -> list Z)
  (v : CircuitCodeData.t) (Hwf : circuit_code_wf v = true) :
  let p := new_circuit_code v in
  let hb := header_to_bytes (Packet.header p) in
  let bytes := packet_to_bytes header_to_bytes login_to_bytes cam_to_bytes other_to_bytes p in
  firstn (length hb) bytes = hb /\
  length bytes = (length hb + 36)%nat /\
  circuit_code_from_bytes (skipn (length hb) bytes) = Done (Ok v).
Proof.
  cbv zeta. unfold packet_to_bytes. cbn [Packet.body new_circuit_code packet_type_to_bytes].
  set (hb := header_to_bytes _).
  split; [| split].
  - rewrite firstn_app, Nat.sub_diag, firstn_O, app_nil_r. apply firstn_all.
  - rewrite length_app, circuit_code_to_bytes_length by exact Hwf. reflexivity.
  - rewrite skipn_app, Nat.sub_diag, skipn_O, skipn_all, app_nil_l.
    apply circuit_code_decode_encode. exact Hwf.
Qed.

Lemma new_circuit_code_packet_bytes_witness :
  circuit_code_wf sample_circuit_code = true /\
  circuit_code_from_bytes
    (skipn 2 (packet_to_bytes (fun _ => [0; 1]) (fun _ => []) (fun _ => [])
                (fun _ r => r) (new_circuit_code sample_circuit_code)))
    = Done (Ok sample_circuit_code).
Proof.
  split; [reflexivity |].
  destruct (new_circuit_code_packet_bytes (fun _ => [0; 1]) (fun _ => []) (fun _ => [])
              (fun _ r => r) sample_circuit_code eq_refl) as [_ [_ H]].
  exact H.
Defined.

(** ** The bridge loop *)

Section BridgeLoop.
Variable login_with_creds : Login.t -> result LoginResponse.t SessionError.t.
Variable serialize_response : LoginResponse.t -> list Z.
Variable send_outcome : nat -> option ActixMailboxError.
Variable cam_header : Header.t.
Variable from_id : Z -> PacketFrequency -> list Z -> Exec (io_result PacketType.t).

Let hl := handle_login login_with_creds serialize_response send_outcome cam_header.
Let iter := bridge_iter login_with_creds serialize_response send_outcome cam_header from_id.
Let loop := bridge_loop login_with_creds serialize_response send_outcome cam_header from_id.

Lemma bridge_iter_appends (ev : RecvEvent) (t : list MailMsg) :
  exists sent, snd (iter ev t) = t ++ sent /\ no_login_packet sent = true.
Proof.
  unfold iter, bridge_iter, bind, lift, ret, do_send.
  destruct ev as [d |]; [| exists []; rewrite app_nil_r; split; reflexivity].
  destruct (packet_from_bytes from_id (firstn 1024 d)) as [[p | e] |];
    [| exists []; rewrite app_nil_r; split; reflexivity
     | exists []; rewrite app_nil_r; split; reflexivity].
  destruct p as [h b]. cbn [Packet.body].
  destruct b as [login | c | c | nm raw];
    try (eexists; split; [reflexivity | reflexivity]).
  destruct (handle_login_sends_no_login_packet login_with_creds serialize_response
              send_outcome cam_header login t) as [sent [Hs Hf]].
  destruct (handle_login login_with_creds serialize_response send_outcome cam_header
              login t) as [[] t']; cbn [snd] in Hs |- *; exists sent; split; assumption.
Qed.

(** X6: over any run of the loop, panicking or not, the Mailbox log only
    grows, and nothing it gains is a packet with a Login body. *)
Theorem bridge_loop_never_forwards_login (evs : list RecvEvent) (t : list MailMsg) :
  exists sent, snd (loop evs t) = t ++ sent /\ no_login_packet sent = true.
Proof.
  revert t. induction evs as [| ev evs IH]; intros t.
  - exists []. rewrite app_nil_r. split; reflexivity.
  - unfold loop in *. cbn [bridge_loop]. unfold bind.
    destruct (bridge_iter_appends ev t) as [s1 [H1 F1]]. unfold iter in H1.
    destruct (bridge_iter login_with_creds serialize_response send_outcome cam_header
                from_id ev t) as [[] t'] eqn:E; cbn [snd] in H1; subst t'.
    + destruct (IH (t ++ s1)) as [s2 [H2 F2]]. exists (s1 ++ s2).
      rewrite H2, app_assoc. split; [reflexivity |].
      unfold no_login_packet in *. rewrite forallb_app, F1, F2. reflexivity.
    + exists s1. split; [reflexivity | exact F1].
Qed.



(** X9: datagrams that decode to packets other than Login are forwarded to
    the Mailbox in the order they arrive, each exactly once. *)
Theorem bridge_loop_forwards_in_order (ds : list (list Z)) (ps : list Packet.t)
  (t : list MailMsg)
  (Hdec : Forall2 (fun d p => packet_from_bytes from_id (firstn 1024 d) = Done (Ok p) /\
                              is_login_packet (MPacket p) = false) ds ps) :
  loop (map Datagram ds) t = (Done tt, t ++ map MPacket ps).
Proof.
  revert t. induction Hdec as [| d p ds ps [Hd Hp] _ IH]; intros t.
  - rewrite app_nil_r. reflexivity.
  - unfold loop in *. cbn [map bridge_loop]. unfold bridge_iter, do_send, bind, lift, ret.
    rewrite Hd. destruct p as [h b]. cbn [Packet.body].
    destruct b; [discriminate Hp | | |];
      rewrite IH, <- app_assoc; reflexivity.
Qed.

(** X10: after a successful authentication, every message [handle_login]
    hands the Mailbox (at most four) agrees with the response: the
    notification carries its serialization, the Session its port, address and
    identities with no socket, and both packets its circuit code and the same
    session and agent ids. *)
Theorem handle_login_messages_agree (l : Login.t) (r : LoginResponse.t)
  (t : list MailMsg) (Hauth : login_with_creds l = Ok r) :
  exists sent, snd (hl l t) = t ++ sent /\ (length sent <= 4)%nat /\
               Forall (agrees_with_response serialize_response r) sent.
Proof.
  unfold hl, handle_login, bind, send, lift, ret. rewrite Hauth.
  destruct (LoginResponse.sim_port r) eqn:E1;
    [| eexists; split; [reflexivity | split; [cbn; lia | repeat constructor]]].
  destruct (LoginResponse.sim_ip r) eqn:E2;
    [| eexists; split; [reflexivity | split; [cbn; lia | repeat constructor]]].
  destruct (LoginResponse.agent_id r) eqn:E3;
    [| eexists; split; [reflexivity | split; [cbn; lia | repeat constructor]]].
  destruct (LoginResponse.session_id r) eqn:E4;
    [| eexists; split; [reflexivity | split; [cbn; lia | repeat constructor]]].
  cbn [unwrap].
  repeat match goal with
         | |- context [match send_outcome ?k with _ => _ end] => destruct (send_outcome k)
         end;
    (eexists; split; [rewrite <- !app_assoc; reflexivity |
                      split; [cbn; lia | repeat constructor; cbn; auto]]).
Qed.
End BridgeLoop.

Lemma bridge_loop_forwards_in_order_witness :
  bridge_loop sample_auth sample_serialize all_accepted sample_cam_header sample_from_id
    (map Datagram [sample_circuit_code_datagram; sample_circuit_code_datagram]) []
  = (Done tt, [MPacket sample_circuit_code_packet; MPacket sample_circuit_code_packet]).
Proof.
  exact (bridge_loop_forwards_in_order sample_auth sample_serialize all_accepted
           sample_cam_header sample_from_id
           [sample_circuit_code_datagram; sample_circuit_code_datagram]
           [sample_circuit_code_packet; sample_circuit_code_packet] []
           ltac:(repeat constructor; vm_compute; reflexivity)).
Defined.

Lemma handle_login_messages_agree_witness :
  sample_auth sample_login = Ok sample_response /\
  exists sent,
    snd (handle_login sample_auth sample_serialize all_accepted sample_cam_header
           sample_login []) = [] ++ sent /\ (length sent <= 4)%nat /\
    Forall (agrees_with_response sample_serialize sample_response) sent.
Proof.
  split; [reflexivity |].
  exact (handle_login_messages_agree sample_auth sample_serialize all_accepted
           sample_cam_header sample_login sample_response [] eq_refl).
Defined.
